(** * A model of [homework.py]: the fitness-tracker calculator.

    Python values are modelled as they flow through the program: an
    [int] is an unbounded integer, a [float] is an IEEE-754 binary64
    number (Rocq's primitive [float]), and a [str] is a string.  The
    Python exceptions that the program can raise are threaded through a
    small error monad. *)

From Stdlib Require Import ZArith String Ascii List Bool Lia.
From Stdlib Require Import PrimFloat FloatOps SpecFloat.
Import ListNotations.

Open Scope Z_scope.
Open Scope string_scope.
#[local] Set Warnings "-inexact-float".

(** ** Python values, exceptions and arithmetic *)
Module Py.

Inductive exc : Type :=
  | ZeroDivisionError
  | TypeError
  | OverflowError
  | ValueError
  | AttributeError.

(** The result of a Python computation: a value, or a raised exception. *)
Inductive result (A : Type) : Type :=
  | Ok (a : A)
  | Err (e : exc).
Arguments Ok {A} a.
Arguments Err {A} e.

Definition bind {A B : Type} (m : result A) (k : A -> result B) : result B :=
  match m with
  | Ok a => k a
  | Err e => Err e
  end.

Notation "x <- m ;; k" := (bind m (fun x => k))
  (at level 61, m at next level, right associativity).

Inductive pyval : Type :=
  | PInt (z : Z)
  | PFloat (f : float)
  | PStr (s : string).

(** [float(z)] for a Python [int]: rounded to nearest binary64, ties to
    even.  An integer whose rounding reaches 2^1024, i.e. of magnitude at
    least 2^1024 - 2^970, raises [OverflowError]. *)
Definition INT_FLOAT_LIMIT : Z := 2 ^ 1024 - 2 ^ 970.

Definition int_to_float (z : Z) : result float :=
  if Z.leb INT_FLOAT_LIMIT (Z.abs z) then Err OverflowError
  else Ok (SF2Prim (binary_normalize prec emax z 0 false)).

(** The numeric value of an operand of a mixed [int]/[float] operation. *)
Definition as_float (v : pyval) : result float :=
  match v with
  | PInt z => int_to_float z
  | PFloat f => Ok f
  | PStr _ => Err TypeError
  end.

Fixpoint str_repeat (n : nat) (s : string) : string :=
  match n with
  | O => ""
  | S n' => s ++ str_repeat n' s
  end.

(** [a + b] *)
Definition py_add (a b : pyval) : result pyval :=
  match a, b with
  | PInt x, PInt y => Ok (PInt (x + y))
  | PStr s, PStr t => Ok (PStr (s ++ t))
  | PStr _, _ | _, PStr _ => Err TypeError
  | _, _ => x <- as_float a;; y <- as_float b;; Ok (PFloat (x + y)%float)
  end.

(** [a * b]; a string times an int repeats the string. *)
Definition py_mul (a b : pyval) : result pyval :=
  match a, b with
  | PInt x, PInt y => Ok (PInt (x * y))
  | PStr s, PInt n | PInt n, PStr s => Ok (PStr (str_repeat (Z.to_nat n) s))
  | PStr _, _ | _, PStr _ => Err TypeError
  | _, _ => x <- as_float a;; y <- as_float b;; Ok (PFloat (x * y)%float)
  end.

(** [v == 0] for a number: true for [0], [0.0] and [-0.0]. *)
Definition is_py_zero (v : pyval) : bool :=
  match v with
  | PInt z => Z.eqb z 0
  | PFloat f => PrimFloat.eqb f zero
  | PStr _ => false
  end.

(** An [int] as an (unnormalised) binary number [z * 2^0]. *)
Definition sf_of_Z (z : Z) : spec_float :=
  match z with
  | Z0 => S754_zero false
  | Zpos p => S754_finite false p 0
  | Zneg p => S754_finite true p 0
  end.

(** [x / y] for two Python [int]s, [y <> 0] ([long_true_divide]): the
    exact quotient rounded once to nearest binary64, ties to even
    ([nearest_ratio]), with the sign of zero of [0 / y] following [y]; a
    quotient whose rounding reaches 2^1024, i.e. of magnitude at least
    2^1024 - 2^970, raises [OverflowError].  The operands themselves may
    be of any size. *)
Definition nearest_ratio (x y : Z) : float :=
  SF2Prim (SFdiv prec emax (sf_of_Z x) (sf_of_Z y)).

Definition int_true_div (x y : Z) : result float :=
  if Z.leb (INT_FLOAT_LIMIT * Z.abs y) (Z.abs x) then Err OverflowError
  else Ok (nearest_ratio x y).

(** True division [a / b], always a [float].  For two [int]s the divisor
    is tested first and the exact quotient is rounded once.  With a
    [float] operand the [int] operand is converted first, then the
    divisor is compared with zero ([0.0] and [-0.0] alike). *)
Definition py_div (a b : pyval) : result pyval :=
  match a, b with
  | PInt x, PInt y =>
      if Z.eqb y 0 then Err ZeroDivisionError
      else q <- int_true_div x y;; Ok (PFloat q)
  | PStr _, _ | _, PStr _ => Err TypeError
  | _, _ =>
      x <- as_float a;; y <- as_float b;;
      if PrimFloat.eqb y zero then Err ZeroDivisionError
      else Ok (PFloat (x / y)%float)
  end.

(** [x ** 2]: an [int] squares exactly; a finite [float] whose square
    overflows raises [OverflowError] (C [pow] reports [ERANGE]). *)
Definition py_pow2 (a : pyval) : result pyval :=
  match a with
  | PInt x => Ok (PInt (x * x))
  | PFloat x =>
      let r := (x * x)%float in
      if is_infinity r && negb (is_infinity x) then Err OverflowError
      else Ok (PFloat r)
  | PStr _ => Err TypeError
  end.

End Py.
Import Py.

(** ** The classes of [homework.py] *)
Module Homework.

(** The three subclasses of [Training]; each constructor carries the
    arguments of the class's [__init__], stored unchanged. *)
Inductive training : Type :=
  | Running (action duration weight : pyval)
  | SportsWalking (action duration weight height : pyval)
  | Swimming (action duration weight length_pool count_pool : pyval).

Definition action (t : training) : pyval :=
  match t with
  | Running a _ _ | SportsWalking a _ _ _ | Swimming a _ _ _ _ => a
  end.

Definition duration (t : training) : pyval :=
  match t with
  | Running _ d _ | SportsWalking _ d _ _ | Swimming _ d _ _ _ => d
  end.

Definition weight (t : training) : pyval :=
  match t with
  | Running _ _ w | SportsWalking _ _ w _ | Swimming _ _ w _ _ => w
  end.

(** [self.__class__.__name__] *)
Definition class_name (t : training) : string :=
  match t with
  | Running _ _ _ => "Running"
  | SportsWalking _ _ _ _ => "SportsWalking"
  | Swimming _ _ _ _ _ => "Swimming"
  end.

(** Class constants.  [Training.LEN_STEP = 0.65], overridden by
    [Swimming.LEN_STEP = 1.38]. *)
Definition LEN_STEP (t : training) : pyval :=
  match t with
  | Swimming _ _ _ _ _ => PFloat 1.38
  | _ => PFloat 0.65
  end.

Definition M_IN_KM : pyval := PInt 1000.
Definition MIN_IN_HOUR : pyval := PInt 60.

(** [Running]: [CALORIES_MEAN_SPEED_MULTIPLIER = 18],
    [CALORIES_MEAN_SPEED_SHIFT = 1.79]. *)
Definition RUN_MULTIPLIER : pyval := PInt 18.
Definition RUN_SHIFT : pyval := PFloat 1.79.

(** [SportsWalking] constants. *)
Definition WLK_MULTIPLIER : pyval := PFloat 0.035.
Definition WLK_SHIFT : pyval := PFloat 0.029.
Definition KMH_TO_MPS : pyval := PFloat 0.278.
Definition CM_TO_M : pyval := PInt 100.

(** [Swimming] constants. *)
Definition SWM_MULTIPLIER : pyval := PFloat 1.1.
Definition SWM_SHIFT : pyval := PInt 2.

(** [Training.training_time_in_minutes] *)
Definition training_time_in_minutes (t : training) : result pyval :=
  py_mul (duration t) MIN_IN_HOUR.

(** [Training.get_distance] (not overridden) *)
Definition get_distance (t : training) : result pyval :=
  x <- py_mul (action t) (LEN_STEP t);;
  py_div x M_IN_KM.

(** [Training.get_mean_speed] *)
Definition training_get_mean_speed (t : training) : result pyval :=
  dist <- get_distance t;;
  py_div dist (duration t).

(** [get_mean_speed], with the override of [Swimming]. *)
Definition get_mean_speed (t : training) : result pyval :=
  match t with
  | Swimming _ d _ lp cp =>
      x <- py_mul lp cp;;
      y <- py_div x M_IN_KM;;
      py_div y d
  | _ => training_get_mean_speed t
  end.

(** [SportsWalking.height_in_m] *)
Definition height_in_m (height : pyval) : result pyval :=
  py_div height CM_TO_M.

(** [get_spent_calories] of each subclass, operands evaluated left to
    right as Python does. *)
Definition get_spent_calories (t : training) : result pyval :=
  match t with
  | Running _ _ w =>
      (* (18 * mean_speed + 1.79) * weight / M_IN_KM * minutes *)
      s <- training_get_mean_speed t;;
      a <- py_mul RUN_MULTIPLIER s;;
      b <- py_add a RUN_SHIFT;;
      c <- py_mul b w;;
      e <- py_div c M_IN_KM;;
      m <- training_time_in_minutes t;;
      py_mul e m
  | SportsWalking _ _ w h =>
      (* (0.035 * weight + ((mean_speed * 0.278) ** 2 / height_in_m)
          * 0.029 * weight) * minutes *)
      a <- py_mul WLK_MULTIPLIER w;;
      s <- training_get_mean_speed t;;
      b <- py_mul s KMH_TO_MPS;;
      c <- py_pow2 b;;
      hm <- height_in_m h;;
      e <- py_div c hm;;
      g <- py_mul e WLK_SHIFT;;
      k <- py_mul g w;;
      l <- py_add a k;;
      m <- training_time_in_minutes t;;
      py_mul l m
  | Swimming _ d w _ _ =>
      (* (mean_speed + 1.1) * 2 * weight * duration *)
      s <- get_mean_speed t;;
      a <- py_add s SWM_MULTIPLIER;;
      b <- py_mul a SWM_SHIFT;;
      c <- py_mul b w;;
      py_mul c d
  end.

(** [InfoMessage] *)
Record info_message : Type := InfoMessage {
  training_type : string;
  info_duration : pyval;
  info_distance : pyval;
  info_speed : pyval;
  info_calories : pyval
}.

(** [Training.show_training_info] *)
Definition show_training_info (t : training) : result info_message :=
  dist <- get_distance t;;
  speed <- get_mean_speed t;;
  cal <- get_spent_calories t;;
  Ok (InfoMessage (class_name t) (duration t) dist speed cal).

(** The positional call [cls( *data )]: a wrong number of arguments
    raises [TypeError]; the values themselves are stored unchecked. *)
Definition new_running (data : list pyval) : result training :=
  match data with
  | [a; d; w] => Ok (Running a d w)
  | _ => Err TypeError
  end.

Definition new_sports_walking (data : list pyval) : result training :=
  match data with
  | [a; d; w; h] => Ok (SportsWalking a d w h)
  | _ => Err TypeError
  end.

Definition new_swimming (data : list pyval) : result training :=
  match data with
  | [a; d; w; lp; cp] => Ok (Swimming a d w lp cp)
  | _ => Err TypeError
  end.

(** [training_dct] *)
Definition training_dct : list (string * (list pyval -> result training)) :=
  [("SWM", new_swimming); ("RUN", new_running); ("WLK", new_sports_walking)].

Fixpoint dct_get {V : Type} (k : string) (d : list (string * V)) : option V :=
  match d with
  | [] => None
  | (k', v) :: d' => if String.eqb k k' then Some v else dct_get k d'
  end.

(** [read_package]: [None] stands for Python's [None]. *)
Definition read_package (workout_type : string) (data : list pyval)
  : result (option training) :=
  match dct_get workout_type training_dct with
  | Some cls => t <- cls data;; Ok (Some t)
  | None => Ok None
  end.

(** ** String formatting: the format spec [.3f] *)

Definition digit_char (n : Z) : ascii := ascii_of_nat (48 + Z.to_nat n).

(** Decimal digits of a nonnegative integer, most significant first. *)
Fixpoint digits_aux (fuel : nat) (n : Z) (acc : string) : string :=
  match fuel with
  | O => acc
  | S fuel' =>
      let acc' := String (digit_char (n mod 10)) acc in
      if Z.ltb n 10 then acc' else digits_aux fuel' (n / 10) acc'
  end.

Definition str_of_Z (n : Z) : string :=
  digits_aux (S (Z.to_nat (Z.log2 n))) n "".

(** The three fractional digits of [n mod 1000]. *)
Definition frac3 (n : Z) : string :=
  String (digit_char (n / 100))
    (String (digit_char ((n / 10) mod 10))
      (String (digit_char (n mod 10)) "")).

(** [n / 1000] printed as [int.frac] with three fractional digits. *)
Definition fixed3 (n : Z) : string :=
  str_of_Z (n / 1000) ++ "." ++ frac3 (n mod 1000).

(** [round(m * 2^e * 1000)], exact, ties to even. *)
Definition scaled_1000 (m : positive) (e : Z) : Z :=
  if Z.leb 0 e then Z.pos m * 2 ^ e * 1000
  else
    let num := Z.pos m * 1000 in
    let den := 2 ^ (- e) in
    let q := num / den in
    let r := num mod den in
    match Z.compare (2 * r) den with
    | Gt => q + 1
    | Eq => if Z.odd q then q + 1 else q
    | Lt => q
    end.

(** [format(f, '.3f')] for a [float]: CPython rounds the exact binary
    value to three decimals, ties to even, and writes [inf], [-inf] and
    [nan] for the non-finite values. *)
Definition format_sf_3f (x : spec_float) : string :=
  match x with
  | S754_nan => "nan"
  | S754_infinity s => if s then "-inf" else "inf"
  | S754_zero s => (if s then "-" else "") ++ "0.000"
  | S754_finite s m e => (if s then "-" else "") ++ fixed3 (scaled_1000 m e)
  end.

Definition format_float_3f (f : float) : string := format_sf_3f (Prim2SF f).

(** [format(v, '.3f')]: an [int] is converted to [float] first; a [str]
    has no [f] format and raises [ValueError]. *)
Definition format_3f (v : pyval) : result string :=
  match v with
  | PInt z => f <- int_to_float z;; Ok (format_float_3f f)
  | PFloat f => Ok (format_float_3f f)
  | PStr _ => Err ValueError
  end.

(** [InfoMessage.get_message]; the replacement fields are formatted left
    to right. *)
Definition get_message (i : info_message) : result string :=
  d <- format_3f (info_duration i);;
  x <- format_3f (info_distance i);;
  s <- format_3f (info_speed i);;
  c <- format_3f (info_calories i);;
  Ok ("Тип тренировки: " ++ training_type i ++ "; "
      ++ "Длительность: " ++ d ++ " ч.; "
      ++ "Дистанция: " ++ x ++ " км; Ср. скорость: "
      ++ s ++ " км/ч; Потрачено ккал: " ++ c ++ ".").

(** [main]: the printed line.  Called on [None], the attribute lookup
    [training.show_training_info] raises [AttributeError]. *)
Definition main (training : option training) : result string :=
  match training with
  | None => Err AttributeError
  | Some t => i <- show_training_info t;; get_message i
  end.

(** The body of the [__main__] loop for one package:
    [training = read_package(workout_type, data); main(training)]. *)
Definition run_package (workout_type : string) (data : list pyval)
  : result string :=
  t <- read_package workout_type data;; main t.

(** The packages of the [__main__] block. *)
Definition pkg_swm : list pyval := [PInt 720; PInt 1; PInt 80; PInt 25; PInt 40].
Definition pkg_run : list pyval := [PInt 15000; PInt 1; PInt 75].
Definition pkg_wlk : list pyval := [PInt 9000; PInt 1; PInt 75; PInt 180].

(** The [for] loop of the [__main__] block: the lines printed, in order,
    and the exception that ended the run, if one was raised; an exception
    stops the loop. *)
Fixpoint main_block (packages : list (string * list pyval))
  : list string * option exc :=
  match packages with
  | [] => ([], None)
  | (workout_type, data) :: rest =>
      match run_package workout_type data with
      | Ok line => let (lines, e) := main_block rest in (line :: lines, e)
      | Err e => ([], Some e)
      end
  end.

End Homework.
Import Homework.

(** ** Predicates used in the statements *)

Definition is_ok {A : Type} (r : result A) : bool :=
  match r with Ok _ => true | Err _ => false end.

(** A record whose stored values are numbers that Python can use as
    floats (no [str], no [int] beyond the float range); for [Swimming]
    the pool product [length_pool * count_pool] is such a number too. *)
Definition numeric_record (t : training) : bool :=
  match t with
  | Running a d w => is_ok (as_float a) && is_ok (as_float d) && is_ok (as_float w)
  | SportsWalking a d w h =>
      is_ok (as_float a) && is_ok (as_float d) && is_ok (as_float w)
      && is_ok (as_float h)
  | Swimming a d w lp cp =>
      is_ok (as_float a) && is_ok (as_float d) && is_ok (as_float w)
      && is_ok (as_float lp) && is_ok (as_float cp)
      && is_ok (p <- py_mul lp cp;; as_float p)
  end.

(** The Python test [get_mean_speed() * duration == get_distance()]. *)
Definition speed_duration_matches_distance (t : training) : bool :=
  match get_mean_speed t, get_distance t with
  | Ok s, Ok (PFloat x) =>
      match py_mul s (duration t) with
      | Ok (PFloat y) => PrimFloat.eqb y x
      | _ => false
      end
  | _, _ => false
  end.

(** The number of values the constructor of each code accepts. *)
Definition expected_arity (workout_type : string) : option nat :=
  match dct_get workout_type training_dct with
  | Some _ =>
      if String.eqb workout_type "RUN" then Some 3%nat
      else if String.eqb workout_type "WLK" then Some 4%nat
      else Some 5%nat
  | None => None
  end.

(** The values a record was constructed from, in argument order. *)
Definition init_args (t : training) : list pyval :=
  match t with
  | Running a d w => [a; d; w]
  | SportsWalking a d w h => [a; d; w; h]
  | Swimming a d w lp cp => [a; d; w; lp; cp]
  end.

Definition is_float (v : pyval) : bool :=
  match v with PFloat _ => true | _ => false end.

Definition is_str (v : pyval) : bool :=
  match v with PStr _ => true | _ => false end.

(** Some value stored in the record is a [str]. *)
Definition has_str (t : training) : bool := existsb is_str (init_args t).

Definition is_digit (c : ascii) : bool :=
  Nat.leb 48 (nat_of_ascii c) && Nat.leb (nat_of_ascii c) 57.

Fixpoint all_digits (s : string) : bool :=
  match s with
  | EmptyString => true
  | String c s' => is_digit c && all_digits s'
  end.


(** ** Arithmetic on a [float] operand *)

Lemma py_mul_float_l (x : float) (b : pyval) (bf : float) :
  as_float b = Ok bf -> py_mul (PFloat x) b = Ok (PFloat (x * bf)%float).
Proof.
  intro H. destruct b as [z | f | s]; cbn [as_float] in H; try discriminate H;
    unfold py_mul; cbn [as_float bind]; first [rewrite H | injection H as <-];
    reflexivity.
Qed.

Lemma py_mul_float_r (a : pyval) (af y : float) :
  as_float a = Ok af -> py_mul a (PFloat y) = Ok (PFloat (af * y)%float).
Proof.
  intro H. destruct a as [z | f | s]; cbn [as_float] in H; try discriminate H;
    unfold py_mul; cbn [as_float bind]; first [rewrite H | injection H as <-];
    reflexivity.
Qed.

Lemma py_add_float_l (x : float) (b : pyval) (bf : float) :
  as_float b = Ok bf -> py_add (PFloat x) b = Ok (PFloat (x + bf)%float).
Proof.
  intro H. destruct b as [z | f | s]; cbn [as_float] in H; try discriminate H;
    unfold py_add; cbn [as_float bind]; first [rewrite H | injection H as <-];
    reflexivity.
Qed.

Lemma py_div_float_l (x : float) (b : pyval) :
  py_div (PFloat x) b =
    (y <- as_float b;;
     if PrimFloat.eqb y zero then Err ZeroDivisionError else Ok (PFloat (x / y)%float)).
Proof. destruct b; reflexivity. Qed.

Lemma py_div_by_int (x : float) (n : Z) (nf : float) :
  int_to_float n = Ok nf -> PrimFloat.eqb nf zero = false ->
  py_div (PFloat x) (PInt n) = Ok (PFloat (x / nf)%float).
Proof.
  intros Hn Hnf. unfold py_div. cbn [as_float bind]. rewrite Hn. cbn [bind].
  rewrite Hnf. reflexivity.
Qed.

Lemma py_div_by_1000 (x : float) :
  py_div (PFloat x) M_IN_KM = Ok (PFloat (x / 1000)%float).
Proof. apply py_div_by_int; vm_compute; reflexivity. Qed.

Lemma py_div_by_100 (x : float) :
  py_div (PFloat x) CM_TO_M = Ok (PFloat (x / 100)%float).
Proof. apply py_div_by_int; vm_compute; reflexivity. Qed.

(** An [int] below the float range divided by 1000 is its quotient
    rounded once; it never raises. *)
Lemma py_div_int_by_1000 (n : Z) (f : float) :
  int_to_float n = Ok f -> py_div (PInt n) M_IN_KM = Ok (PFloat (nearest_ratio n 1000)).
Proof.
  unfold int_to_float. intro Hn.
  destruct (Z.leb_spec INT_FLOAT_LIMIT (Z.abs n)); [discriminate Hn|].
  unfold py_div, M_IN_KM, int_true_div. cbn [Z.eqb bind].
  destruct (Z.leb_spec (INT_FLOAT_LIMIT * Z.abs 1000) (Z.abs n)); [|reflexivity].
  exfalso. unfold INT_FLOAT_LIMIT in *. cbn [Z.abs] in *. lia.
Qed.

Lemma py_div_by_1000_ok (p : pyval) (pf : float) :
  as_float p = Ok pf -> exists q, py_div p M_IN_KM = Ok (PFloat q).
Proof.
  intro Hp. destruct p as [z | f | s]; cbn [as_float] in Hp; try discriminate Hp.
  - eexists. exact (py_div_int_by_1000 z pf Hp).
  - injection Hp as <-. eexists. apply py_div_by_1000.
Qed.

Lemma get_distance_ok (t : training) (af : float) :
  as_float (action t) = Ok af ->
  get_distance t =
    Ok (PFloat (af * (match t with
                      | Swimming _ _ _ _ _ => 1.38
                      | _ => 0.65
                      end) / 1000)%float).
Proof.
  intro Ha. unfold get_distance.
  destruct t; cbn [LEN_STEP];
    rewrite (py_mul_float_r _ af _ Ha); cbn [bind];
    apply py_div_by_1000; reflexivity.
Qed.

(** ** Dispatch: [read_package] *)

Lemma dct_get_training_dct (wt : string) :
  wt <> "SWM" -> wt <> "RUN" -> wt <> "WLK" -> dct_get wt training_dct = None.
Proof.
  intros H1 H2 H3. unfold training_dct; simpl.
  destruct (String.eqb_spec wt "SWM"); [contradiction|].
  destruct (String.eqb_spec wt "RUN"); [contradiction|].
  destruct (String.eqb_spec wt "WLK"); [contradiction|].
  reflexivity.
Qed.

(** Claim C1 (counterexample): for the unknown code ["XYZ"],
    [read_package] raises nothing and returns [None]. *)
Lemma C1_unknown_code_returns_none :
  read_package "XYZ" [PInt 1; PInt 2; PInt 3] = Ok None
  /\ forall e, read_package "XYZ" [PInt 1; PInt 2; PInt 3] <> Err e.
Proof.
  split; [reflexivity|]. intros e H. discriminate H.
Qed.

(** Claim C1 (amended): for every code other than "SWM", "RUN" and "WLK"
    and any data, [read_package] returns [None] without raising; the
    failure appears only when [main] is called on that [None], as an
    [AttributeError]. *)
Theorem C1_unknown_code_none_then_attribute_error
  (wt : string) (data : list pyval)
  (Hswm : wt <> "SWM") (Hrun : wt <> "RUN") (Hwlk : wt <> "WLK") :
  read_package wt data = Ok None
  /\ run_package wt data = Err AttributeError.
Proof.
  unfold run_package, read_package.
  rewrite (dct_get_training_dct wt Hswm Hrun Hwlk). split; reflexivity.
Qed.

Lemma C1_unknown_code_none_then_attribute_error_witness :
  read_package "XYZ" [PInt 1; PInt 2; PInt 3] = Ok None
  /\ run_package "XYZ" [PInt 1; PInt 2; PInt 3] = Err AttributeError.
Proof.
  apply (C1_unknown_code_none_then_attribute_error "XYZ");
    intro H; discriminate H.
Defined.

(** ** Distance and mean speed *)

(** Claim C3: the distance is [action * LEN_STEP / 1000] in float
    arithmetic, with a step of 0.65 for [Running] and [SportsWalking] and
    1.38 for [Swimming], whenever [action] is a number usable as a float. *)
Theorem C3_distance_formula (t : training) (af : float)
  (Ha : as_float (action t) = Ok af) :
  get_distance t =
    Ok (PFloat (af * (match t with
                      | Swimming _ _ _ _ _ => 1.38
                      | _ => 0.65
                      end) / 1000)%float).
Proof. exact (get_distance_ok t af Ha). Qed.

Lemma C3_distance_formula_witness :
  as_float (action (Swimming (PInt 720) (PInt 1) (PInt 80) (PInt 25) (PInt 40)))
    = Ok 720%float
  /\ get_distance (Swimming (PInt 720) (PInt 1) (PInt 80) (PInt 25) (PInt 40))
     = Ok (PFloat (720 * 1.38 / 1000)%float).
Proof.
  split; [vm_compute; reflexivity|].
  apply (C3_distance_formula
           (Swimming (PInt 720) (PInt 1) (PInt 80) (PInt 25) (PInt 40)) 720%float).
  vm_compute; reflexivity.
Defined.

Lemma training_get_mean_speed_ok (t : training) (af dd : float) :
  as_float (action t) = Ok af -> as_float (duration t) = Ok dd ->
  PrimFloat.eqb dd zero = false ->
  training_get_mean_speed t =
    Ok (PFloat (af * (match t with
                      | Swimming _ _ _ _ _ => 1.38
                      | _ => 0.65
                      end) / 1000 / dd)%float).
Proof.
  intros Ha Hd Hd0. unfold training_get_mean_speed.
  rewrite (get_distance_ok t af Ha). cbn [bind].
  rewrite py_div_float_l, Hd. cbn [bind]. rewrite Hd0. reflexivity.
Qed.

(** Claim C4: the mean speed of a [Swimming] record is
    [length_pool * count_pool / 1000 / duration] evaluated as Python
    evaluates it: the product as Python computes it, then, for an [int]
    product, its exact quotient by 1000 rounded once, for a [float] product
    the float quotient; it does not depend on [action]. *)
Theorem C4_swimming_mean_speed (a a' d w lp cp p : pyval) (pf dd : float)
  (Hp : py_mul lp cp = Ok p) (Hpf : as_float p = Ok pf)
  (Hd : as_float d = Ok dd) (Hd0 : PrimFloat.eqb dd zero = false) :
  get_mean_speed (Swimming a d w lp cp)
    = Ok (PFloat ((match p with
                   | PInt n => nearest_ratio n 1000
                   | _ => pf / 1000
                   end) / dd)%float)
  /\ get_mean_speed (Swimming a d w lp cp) = get_mean_speed (Swimming a' d w lp cp).
Proof.
  split; [|reflexivity].
  unfold get_mean_speed. rewrite Hp. cbn [bind].
  destruct p as [n | f | s]; cbn [as_float] in Hpf; try discriminate Hpf.
  - rewrite (py_div_int_by_1000 n pf Hpf). cbn [bind].
    rewrite py_div_float_l, Hd. cbn [bind]. rewrite Hd0. reflexivity.
  - injection Hpf as <-. rewrite py_div_by_1000. cbn [bind].
    rewrite py_div_float_l, Hd. cbn [bind]. rewrite Hd0. reflexivity.
Qed.

Lemma C4_swimming_mean_speed_witness :
  get_mean_speed (Swimming (PInt 720) (PInt 1) (PInt 80) (PInt 9007199254740995) (PInt 1))
    = Ok (PFloat (nearest_ratio 9007199254740995 1000 / 1)%float)
  /\ get_mean_speed (Swimming (PInt 720) (PInt 1) (PInt 80) (PInt 9007199254740995) (PInt 1))
     = get_mean_speed (Swimming (PInt 0) (PInt 1) (PInt 80) (PInt 9007199254740995) (PInt 1)).
Proof.
  apply (C4_swimming_mean_speed (PInt 720) (PInt 0) (PInt 1) (PInt 80)
           (PInt 9007199254740995) (PInt 1) (PInt 9007199254740995)
           9007199254740996%float 1%float);
    vm_compute; reflexivity.
Defined.

(** The [int] product is divided with a single rounding:
    [9007199254740995 / 1000] is [9007199254740.994], where converting
    the product to [float] first would give [9007199254740.996]. *)
Lemma swimming_speed_rounded_once :
  get_mean_speed (Swimming (PInt 720) (PInt 1) (PInt 80) (PInt 9007199254740995) (PInt 1))
    = Ok (PFloat 9007199254740.994)
  /\ PrimFloat.eqb (9007199254740995 / 1000)%float 9007199254740.994 = false.
Proof. split; vm_compute; reflexivity. Qed.

(** ** Calories *)

(** Claim C2 (amended): for a [Running] record with float duration and
    weight, the calories are [(18 * s + 1.79) * weight / 1000 * (duration * 60)]
    in float arithmetic, [s] being the mean speed [distance / duration];
    the package [("RUN", [15000, 1, 75])] prints distance 9.750, speed 9.750
    and calories 797.805. *)
Theorem C2_running_calories (a : pyval) (af d w : float)
  (Ha : as_float a = Ok af) (Hd : PrimFloat.eqb d zero = false) :
  let s := (af * 0.65 / 1000 / d)%float in
  get_mean_speed (Running a (PFloat d) (PFloat w)) = Ok (PFloat s)
  /\ get_spent_calories (Running a (PFloat d) (PFloat w))
     = Ok (PFloat ((18 * s + 1.79) * w / 1000 * (d * 60))%float)
  /\ run_package "RUN" pkg_run
     = Ok ("Тип тренировки: Running; Длительность: 1.000 ч.; "
           ++ "Дистанция: 9.750 км; Ср. скорость: 9.750 км/ч; "
           ++ "Потрачено ккал: 797.805.").
Proof.
  intro s.
  assert (Hs : training_get_mean_speed (Running a (PFloat d) (PFloat w))
               = Ok (PFloat s))
    by exact (training_get_mean_speed_ok (Running a (PFloat d) (PFloat w))
                af d Ha eq_refl Hd).
  split; [exact Hs|]. split; [|vm_compute; reflexivity].
  unfold get_spent_calories. rewrite Hs. cbn [bind].
  unfold RUN_MULTIPLIER, RUN_SHIFT, training_time_in_minutes, MIN_IN_HOUR.
  rewrite (py_mul_float_r (PInt 18) 18 s eq_refl). cbn [bind].
  rewrite (py_add_float_l _ (PFloat 1.79) 1.79 eq_refl). cbn [bind].
  rewrite (py_mul_float_l _ (PFloat w) w eq_refl). cbn [bind].
  rewrite py_div_by_1000. cbn [bind duration].
  rewrite (py_mul_float_l d (PInt 60) 60 eq_refl). cbn [bind].
  rewrite (py_mul_float_l _ (PFloat _) _ eq_refl). reflexivity.
Qed.

Lemma C2_running_calories_witness :
  as_float (PInt 15000) = Ok 15000%float /\ PrimFloat.eqb 1 zero = false /\
  (let s := (15000 * 0.65 / 1000 / 1)%float in
   get_mean_speed (Running (PInt 15000) (PFloat 1) (PFloat 75)) = Ok (PFloat s)
   /\ get_spent_calories (Running (PInt 15000) (PFloat 1) (PFloat 75))
      = Ok (PFloat ((18 * s + 1.79) * 75 / 1000 * (1 * 60))%float)
   /\ run_package "RUN" pkg_run
      = Ok ("Тип тренировки: Running; Длительность: 1.000 ч.; "
            ++ "Дистанция: 9.750 км; Ср. скорость: 9.750 км/ч; "
            ++ "Потрачено ккал: 797.805.")).
Proof.
  split; [vm_compute; reflexivity|]. split; [vm_compute; reflexivity|].
  apply (C2_running_calories (PInt 15000) 15000 1 75); vm_compute; reflexivity.
Defined.

(** Claim C2 (counterexample): the package [("RUN", [15000, 1, 75])] burns
    more than 797 kcal and prints 797.805, not about 790.886. *)
Lemma C2_example_is_797_805 :
  read_package "RUN" pkg_run = Ok (Some (Running (PInt 15000) (PInt 1) (PInt 75)))
  /\ (exists c, get_spent_calories (Running (PInt 15000) (PInt 1) (PInt 75))
                = Ok (PFloat c)
                /\ PrimFloat.ltb 797 c = true
                /\ format_float_3f c = "797.805"
                /\ format_float_3f c <> "790.886").
Proof.
  split; [reflexivity|].
  eexists. split; [vm_compute; reflexivity|].
  split; [vm_compute; reflexivity|]. split; [vm_compute; reflexivity|].
  vm_compute. intro H. discriminate H.
Qed.

(** Claim C5: for a [Swimming] record with float duration and weight,
    the calories are [(s + 1.1) * 2 * weight * duration] in float
    arithmetic, [s] being its mean speed; the package
    [("SWM", [720, 1, 80, 25, 40])] prints speed 1.000 and calories 336.000. *)
Theorem C5_swimming_calories (a lp cp : pyval) (s d w : float)
  (Hs : get_mean_speed (Swimming a (PFloat d) (PFloat w) lp cp) = Ok (PFloat s)) :
  get_spent_calories (Swimming a (PFloat d) (PFloat w) lp cp)
    = Ok (PFloat ((s + 1.1) * 2 * w * d)%float)
  /\ run_package "SWM" pkg_swm
     = Ok ("Тип тренировки: Swimming; Длительность: 1.000 ч.; "
           ++ "Дистанция: 0.994 км; Ср. скорость: 1.000 км/ч; "
           ++ "Потрачено ккал: 336.000.").
Proof.
  split; [|vm_compute; reflexivity].
  unfold get_spent_calories. rewrite Hs. cbn [bind].
  unfold SWM_MULTIPLIER, SWM_SHIFT.
  rewrite (py_add_float_l s (PFloat 1.1) 1.1 eq_refl). cbn [bind].
  rewrite (py_mul_float_l _ (PInt 2) 2 eq_refl). cbn [bind].
  rewrite (py_mul_float_l _ (PFloat w) w eq_refl). cbn [bind].
  rewrite (py_mul_float_l _ (PFloat d) d eq_refl). reflexivity.
Qed.

Lemma C5_swimming_calories_witness :
  get_mean_speed (Swimming (PInt 720) (PFloat 1) (PFloat 80) (PInt 25) (PInt 40))
    = Ok (PFloat 1)
  /\ get_spent_calories (Swimming (PInt 720) (PFloat 1) (PFloat 80) (PInt 25) (PInt 40))
     = Ok (PFloat ((1 + 1.1) * 2 * 80 * 1)%float)
  /\ run_package "SWM" pkg_swm
     = Ok ("Тип тренировки: Swimming; Длительность: 1.000 ч.; "
           ++ "Дистанция: 0.994 км; Ср. скорость: 1.000 км/ч; "
           ++ "Потрачено ккал: 336.000.").
Proof.
  split; [vm_compute; reflexivity|].
  apply (C5_swimming_calories (PInt 720) (PInt 25) (PInt 40) 1 1 80).
  vm_compute; reflexivity.
Defined.

(** Claim C6: for a [SportsWalking] record with float duration, weight and
    height, the calories are
    [(0.035 * weight + ((s * 0.278) ** 2 / (height / 100)) * 0.029 * weight)
     * (duration * 60)] in float arithmetic, with [s = distance / duration];
    the hypotheses on [height / 100] and on the square say that the
    formula's own divisor is nonzero and its square is a finite float. *)
Theorem C6_walking_calories (a : pyval) (af d w h : float)
  (Ha : as_float a = Ok af) (Hd : PrimFloat.eqb d zero = false)
  (Hh : PrimFloat.eqb (h / 100) zero = false) :
  let s := (af * 0.65 / 1000 / d)%float in
  let b := (s * 0.278)%float in
  is_infinity (b * b) = false ->
  get_mean_speed (SportsWalking a (PFloat d) (PFloat w) (PFloat h)) = Ok (PFloat s)
  /\ get_spent_calories (SportsWalking a (PFloat d) (PFloat w) (PFloat h))
     = Ok (PFloat ((0.035 * w + ((b * b) / (h / 100)) * 0.029 * w) * (d * 60))%float).
Proof.
  intros s b Hb.
  assert (Hs : training_get_mean_speed
                 (SportsWalking a (PFloat d) (PFloat w) (PFloat h)) = Ok (PFloat s))
    by exact (training_get_mean_speed_ok
                (SportsWalking a (PFloat d) (PFloat w) (PFloat h)) af d Ha eq_refl Hd).
  split; [exact Hs|].
  unfold get_spent_calories, WLK_MULTIPLIER, WLK_SHIFT, KMH_TO_MPS,
    training_time_in_minutes, MIN_IN_HOUR.
  rewrite (py_mul_float_l 0.035 (PFloat w) w eq_refl). cbn [bind].
  rewrite Hs. cbn [bind].
  rewrite (py_mul_float_l s (PFloat 0.278) 0.278 eq_refl). cbn [bind].
  unfold py_pow2. fold b. rewrite Hb. cbn [andb bind].
  unfold height_in_m. rewrite py_div_by_100. cbn [bind].
  rewrite py_div_float_l. cbn [as_float bind]. rewrite Hh. cbn [bind].
  rewrite (py_mul_float_l _ (PFloat 0.029) 0.029 eq_refl). cbn [bind].
  rewrite (py_mul_float_l _ (PFloat w) w eq_refl). cbn [bind].
  rewrite (py_add_float_l _ (PFloat _) _ eq_refl). cbn [bind duration].
  rewrite (py_mul_float_l d (PInt 60) 60 eq_refl). cbn [bind].
  rewrite (py_mul_float_l _ (PFloat _) _ eq_refl). reflexivity.
Qed.

Lemma C6_walking_calories_witness :
  let s := (9000 * 0.65 / 1000 / 1)%float in
  let b := (s * 0.278)%float in
  is_infinity (b * b) = false
  /\ get_mean_speed (SportsWalking (PInt 9000) (PFloat 1) (PFloat 75) (PFloat 180))
     = Ok (PFloat s)
  /\ get_spent_calories (SportsWalking (PInt 9000) (PFloat 1) (PFloat 75) (PFloat 180))
     = Ok (PFloat ((0.035 * 75 + ((b * b) / (180 / 100)) * 0.029 * 75) * (1 * 60))%float).
Proof.
  intros s b. split; [vm_compute; reflexivity|].
  apply (C6_walking_calories (PInt 9000) 9000 1 75 180); vm_compute; reflexivity.
Defined.

(** ** Zero duration *)

Lemma is_ok_as_float (v : pyval) :
  is_ok (as_float v) = true -> exists f, as_float v = Ok f.
Proof. destruct (as_float v) as [f | e]; [eauto | discriminate]. Qed.

Lemma py_div_float_by_zero (x : float) (d : pyval) :
  is_py_zero d = true -> py_div (PFloat x) d = Err ZeroDivisionError.
Proof.
  intro Hz. destruct d as [z | f | s]; cbn [is_py_zero] in Hz; try discriminate Hz.
  - apply Z.eqb_eq in Hz. subst z. reflexivity.
  - rewrite py_div_float_l. cbn [as_float bind]. rewrite Hz. reflexivity.
Qed.

Ltac numeric_fields :=
  repeat match goal with
  | H : (_ && _)%bool = true |- _ => apply andb_prop in H; destruct H
  | H : is_ok (as_float _) = true |- _ =>
      apply is_ok_as_float in H; destruct H
  end.

(** Claim C7: for a record of any kind whose values are numbers and whose
    duration is zero ([0], [0.0] or [-0.0]), both the mean speed and the
    calories raise [ZeroDivisionError]; no infinite or NaN value is
    returned. *)
Theorem C7_zero_duration_raises (t : training)
  (Hnum : numeric_record t = true) (Hzero : is_py_zero (duration t) = true) :
  get_mean_speed t = Err ZeroDivisionError
  /\ get_spent_calories t = Err ZeroDivisionError.
Proof.
  assert (Hd : forall dist, py_div (PFloat dist) (duration t) = Err ZeroDivisionError)
    by (intro; apply py_div_float_by_zero; exact Hzero).
  assert (Htr : forall af, as_float (action t) = Ok af ->
                  training_get_mean_speed t = Err ZeroDivisionError).
  { intros af Ha. unfold training_get_mean_speed.
    rewrite (get_distance_ok t af Ha). cbn [bind]. apply Hd. }
  destruct t as [a d w | a d w h | a d w lp cp]; cbn [numeric_record] in Hnum;
    numeric_fields.
  - assert (Hm : get_mean_speed (Running a d w) = Err ZeroDivisionError)
      by (eapply Htr; eassumption).
    split; [exact Hm|].
    unfold get_spent_calories. cbn [get_mean_speed] in Hm. rewrite Hm. reflexivity.
  - assert (Hm : get_mean_speed (SportsWalking a d w h) = Err ZeroDivisionError)
      by (eapply Htr; eassumption).
    split; [exact Hm|].
    unfold get_spent_calories, WLK_MULTIPLIER.
    match goal with Hw : as_float w = Ok ?wf |- _ =>
      rewrite (py_mul_float_l 0.035 w wf Hw) end. cbn [bind].
    cbn [get_mean_speed] in Hm. rewrite Hm. reflexivity.
  - match goal with Hprod : is_ok (bind (py_mul lp cp) _) = true |- _ =>
      destruct (py_mul lp cp) as [p | e] eqn:Hp; cbn [bind] in Hprod;
      [apply is_ok_as_float in Hprod; destruct Hprod as [pf Hpf] | discriminate Hprod]
    end.
    assert (Hm : get_mean_speed (Swimming a d w lp cp) = Err ZeroDivisionError).
    { unfold get_mean_speed. rewrite Hp. cbn [bind].
      destruct (py_div_by_1000_ok p pf Hpf) as [q ->]. cbn [bind]. apply Hd. }
    split; [exact Hm|].
    unfold get_spent_calories. rewrite Hm. reflexivity.
Qed.

Lemma C7_zero_duration_raises_witness :
  numeric_record (Swimming (PInt 720) (PFloat 0) (PInt 80) (PInt 25) (PInt 40)) = true
  /\ is_py_zero (duration (Swimming (PInt 720) (PFloat 0) (PInt 80) (PInt 25) (PInt 40)))
     = true
  /\ get_mean_speed (Swimming (PInt 720) (PFloat 0) (PInt 80) (PInt 25) (PInt 40))
     = Err ZeroDivisionError
  /\ get_spent_calories (Swimming (PInt 720) (PFloat 0) (PInt 80) (PInt 25) (PInt 40))
     = Err ZeroDivisionError.
Proof.
  split; [vm_compute; reflexivity|]. split; [vm_compute; reflexivity|].
  apply C7_zero_duration_raises; vm_compute; reflexivity.
Defined.

(** ** Construction of records *)

(** Claim C8 (counterexample): a non-numeric value in a package of the
    right length is stored in a constructed [Running] record; nothing is
    raised by [read_package]. *)
Lemma C8_non_numeric_record_constructed :
  read_package "RUN" [PStr "a"; PInt 1; PInt 75]
    = Ok (Some (Running (PStr "a") (PInt 1) (PInt 75)))
  /\ forall e, read_package "RUN" [PStr "a"; PInt 1; PInt 75] <> Err e.
Proof. split; [reflexivity|]. intros e H. discriminate H. Qed.

Lemma read_package_known (wt : string) (data : list pyval) (n : nat)
  (Hn : expected_arity wt = Some n) :
  (wt = "RUN" /\ n = 3%nat /\ read_package wt data = (t <- new_running data;; Ok (Some t)))
  \/ (wt = "WLK" /\ n = 4%nat
      /\ read_package wt data = (t <- new_sports_walking data;; Ok (Some t)))
  \/ (wt = "SWM" /\ n = 5%nat
      /\ read_package wt data = (t <- new_swimming data;; Ok (Some t))).
Proof.
  unfold expected_arity, read_package in *. unfold training_dct in *. cbn [dct_get] in *.
  destruct (String.eqb_spec wt "SWM") as [->|]; [right; right; injection Hn as <-; auto|].
  destruct (String.eqb_spec wt "RUN") as [->|]; [left; injection Hn as <-; auto|].
  destruct (String.eqb_spec wt "WLK") as [->|]; [right; left; injection Hn as <-; auto|].
  discriminate Hn.
Qed.

(** ** The report line *)

Lemma digit_char_is_digit (n : Z) : 0 <= n < 10 -> is_digit (digit_char n) = true.
Proof.
  intro H. unfold is_digit, digit_char.
  rewrite nat_ascii_embedding by lia.
  apply andb_true_intro. split; apply Nat.leb_le; lia.
Qed.

Lemma all_digits_app (s t : string) :
  all_digits s = true -> all_digits t = true -> all_digits (s ++ t) = true.
Proof.
  induction s as [|c s IH]; cbn [all_digits append]; [auto|].
  intros Hs Ht. apply andb_prop in Hs. destruct Hs as [Hc Hs].
  rewrite Hc, (IH Hs Ht). reflexivity.
Qed.

Lemma digits_aux_digits (fuel : nat) :
  forall n acc, 0 <= n -> all_digits acc = true ->
  all_digits (digits_aux fuel n acc) = true /\
  (acc <> EmptyString \/ fuel <> O -> digits_aux fuel n acc <> EmptyString).
Proof.
  induction fuel as [|fuel IH]; intros n acc Hn Hacc; cbn [digits_aux].
  - split; [exact Hacc|]. intros [H | H]; [exact H | contradiction].
  - assert (Hd : all_digits (String (digit_char (n mod 10)) acc) = true).
    { cbn [all_digits]. rewrite digit_char_is_digit, Hacc; [reflexivity|].
      apply Z.mod_pos_bound. lia. }
    destruct (Z.ltb n 10).
    + split; [exact Hd|]. intros _ H. discriminate H.
    + assert (Hq : 0 <= n / 10) by (apply Z.div_pos; lia).
      destruct (IH (n / 10) _ Hq Hd) as [H1 H2].
      split; [exact H1|]. intros _. apply H2. left. intro H. discriminate H.
Qed.

Lemma fixed3_shape (n : Z) : 0 <= n ->
  exists ip fr, fixed3 n = ip ++ "." ++ fr /\ ip <> EmptyString
    /\ all_digits ip = true /\ String.length fr = 3%nat /\ all_digits fr = true.
Proof.
  intro Hn. exists (str_of_Z (n / 1000)), (frac3 (n mod 1000)).
  assert (Hq : 0 <= n / 1000) by (apply Z.div_pos; lia).
  destruct (digits_aux_digits (S (Z.to_nat (Z.log2 (n / 1000)))) (n / 1000) ""
              Hq eq_refl) as [H1 H2].
  split; [reflexivity|]. split; [apply H2; right; discriminate|].
  split; [exact H1|]. split; [reflexivity|].
  assert (Hr : 0 <= n mod 1000 < 1000) by (apply Z.mod_pos_bound; lia).
  set (r := n mod 1000) in *.
  assert (H100 : 0 <= r / 100 < 10).
  { pose proof (Z.div_mod r 100 ltac:(lia)).
    pose proof (Z.mod_pos_bound r 100 ltac:(lia)). lia. }
  unfold frac3. cbn [all_digits].
  rewrite !digit_char_is_digit; [reflexivity | | |].
  - apply Z.mod_pos_bound; lia.
  - apply Z.mod_pos_bound; lia.
  - exact H100.
Qed.

Lemma scaled_1000_nonneg (m : positive) (e : Z) : 0 <= scaled_1000 m e.
Proof.
  unfold scaled_1000. destruct (Z.leb_spec 0 e).
  - pose proof (Z.pow_nonneg 2 e ltac:(lia)). nia.
  - assert (Hq : 0 <= Z.pos m * 1000 / 2 ^ (- e))
      by (apply Z.div_pos; [lia | apply Z.pow_pos_nonneg; lia]).
    destruct (Z.compare _ _); [destruct (Z.odd _) | |]; lia.
Qed.

Lemma format_sf_3f_shape (x : spec_float) :
  (forall s, x <> S754_infinity s) -> x <> S754_nan ->
  exists sgn ip fr, format_sf_3f x = sgn ++ ip ++ "." ++ fr
    /\ (sgn = "" \/ sgn = "-") /\ ip <> EmptyString /\ all_digits ip = true
    /\ String.length fr = 3%nat /\ all_digits fr = true.
Proof.
  intros Hinf Hnan. destruct x as [s | s | | s m e].
  - exists (if s then "-" else ""), "0", "000".
    split; [reflexivity|]. split; [destruct s; auto|].
    split; [discriminate|]. split; [reflexivity|]. split; reflexivity.
  - exfalso. exact (Hinf s eq_refl).
  - exfalso. exact (Hnan eq_refl).
  - destruct (fixed3_shape (scaled_1000 m e) (scaled_1000_nonneg m e))
      as [ip [fr [Heq Hrest]]].
    exists (if s then "-" else ""), ip, fr. cbn [format_sf_3f]. rewrite Heq.
    split; [reflexivity|]. split; [destruct s; auto | exact Hrest].
Qed.

Lemma Prim2SF_finite (f : float) :
  is_nan f = false -> is_infinity f = false ->
  (forall s, Prim2SF f <> S754_infinity s) /\ Prim2SF f <> S754_nan.
Proof.
  intros Hnan Hinf. unfold Prim2SF. rewrite Hnan, Hinf.
  split; [intro s|]; destruct (is_zero f); try discriminate;
    destruct (Z.frexp f) as [r exp]; destruct (shr_fexp _ _ _ _ _) as [shr e'];
    destruct (shr_m shr); discriminate.
Qed.

(** Claim C9 (counterexample): a [Running] package with weight [1e308]
    overflows the calories to infinity, which the line prints as [inf],
    not with three decimals. *)
Lemma C9_infinite_calories_print_inf :
  run_package "RUN" [PInt 15000; PInt 1; PFloat 1e308]
    = Ok ("Тип тренировки: Running; Длительность: 1.000 ч.; "
          ++ "Дистанция: 9.750 км; Ср. скорость: 9.750 км/ч; "
          ++ "Потрачено ккал: inf.").
Proof. vm_compute. reflexivity. Qed.

(** Claim C9 (amended): the report of a record carries its class name
    (Running, SportsWalking or Swimming); its line is
    'Тип тренировки: {kind}; Длительность: {duration} ч.; Дистанция:
    {distance} км; Ср. скорость: {speed} км/ч; Потрачено ккал: {calories}.'
    with each number formatted by [.3f]; [.3f] writes every finite float
    as an optional minus sign, at least one digit, a point and exactly
    three digits, an [int] as the float it converts to, and the
    non-finite floats as [inf], [-inf] and [nan]. *)
Theorem C9_report_line (t : training) (i : info_message)
  (Hi : show_training_info t = Ok i) :
  training_type i = class_name t
  /\ (class_name t = "Running" \/ class_name t = "SportsWalking"
      \/ class_name t = "Swimming")
  /\ (forall d x s c,
        format_3f (info_duration i) = Ok d -> format_3f (info_distance i) = Ok x ->
        format_3f (info_speed i) = Ok s -> format_3f (info_calories i) = Ok c ->
        get_message i
        = Ok ("Тип тренировки: " ++ class_name t ++ "; Длительность: " ++ d
              ++ " ч.; Дистанция: " ++ x ++ " км; Ср. скорость: " ++ s
              ++ " км/ч; Потрачено ккал: " ++ c ++ "."))
  /\ (forall f, is_nan f = false -> is_infinity f = false ->
        exists sgn ip fr, format_float_3f f = sgn ++ ip ++ "." ++ fr
          /\ (sgn = "" \/ sgn = "-") /\ ip <> EmptyString /\ all_digits ip = true
          /\ String.length fr = 3%nat /\ all_digits fr = true)
  /\ (forall z f, int_to_float z = Ok f -> format_3f (PInt z) = Ok (format_float_3f f))
  /\ format_float_3f infinity = "inf" /\ format_float_3f neg_infinity = "-inf"
  /\ format_float_3f nan = "nan".
Proof.
  assert (Hty : training_type i = class_name t).
  { unfold show_training_info in Hi.
    destruct (get_distance t); [|discriminate Hi]. cbn [bind] in Hi.
    destruct (get_mean_speed t); [|discriminate Hi]. cbn [bind] in Hi.
    destruct (get_spent_calories t); [|discriminate Hi]. cbn [bind] in Hi.
    injection Hi as <-. reflexivity. }
  split; [exact Hty|]. split; [destruct t; cbn; auto|].
  split.
  { intros d x s c Hd Hx Hs Hc. unfold get_message.
    rewrite Hd. cbn [bind]. rewrite Hx. cbn [bind]. rewrite Hs. cbn [bind].
    rewrite Hc. cbn [bind]. rewrite Hty. cbn [append]. reflexivity. }
  split.
  { intros f Hnan Hinf. destruct (Prim2SF_finite f Hnan Hinf) as [H1 H2].
    exact (format_sf_3f_shape (Prim2SF f) H1 H2). }
  split.
  { intros z f Hz. cbn [format_3f]. rewrite Hz. reflexivity. }
  split; [vm_compute; reflexivity|]. split; vm_compute; reflexivity.
Qed.

Lemma C9_report_line_witness :
  show_training_info (Running (PInt 15000) (PInt 1) (PInt 75))
    = Ok (InfoMessage "Running" (PInt 1) (PFloat (15000 * 0.65 / 1000)%float)
            (PFloat (15000 * 0.65 / 1000 / 1)%float)
            (PFloat ((18 * (15000 * 0.65 / 1000 / 1) + 1.79) * 75 / 1000 * 60)%float))
  /\ training_type (InfoMessage "Running" (PInt 1) (PFloat (15000 * 0.65 / 1000)%float)
            (PFloat (15000 * 0.65 / 1000 / 1)%float)
            (PFloat ((18 * (15000 * 0.65 / 1000 / 1) + 1.79) * 75 / 1000 * 60)%float))
     = class_name (Running (PInt 15000) (PInt 1) (PInt 75)).
Proof.
  assert (H : show_training_info (Running (PInt 15000) (PInt 1) (PInt 75))
    = Ok (InfoMessage "Running" (PInt 1) (PFloat (15000 * 0.65 / 1000)%float)
            (PFloat (15000 * 0.65 / 1000 / 1)%float)
            (PFloat ((18 * (15000 * 0.65 / 1000 / 1) + 1.79) * 75 / 1000 * 60)%float)))
    by (vm_compute; reflexivity).
  split; [exact H|].
  exact (proj1 (C9_report_line _ _ H)).
Defined.

(** ** Mean speed against distance *)

Lemma C10_speed_times_duration_not_exact :
  speed_duration_matches_distance (Running (PInt 1000) (PFloat 1.1) (PInt 75)) = false.
Proof. vm_compute. reflexivity. Qed.

(** Claim C10 (amended): for [Running] and [SportsWalking] the mean speed
    is the float quotient [distance / duration] of the very distance that
    is reported, so [mean_speed * duration] equals the distance only up to
    float rounding; for [Swimming] the identity need not hold: the
    package [("SWM", [720, 1, 80, 25, 40])] reports distance 0.9936 and mean
    speed 1.0 over one hour. *)
Theorem C10_speed_from_same_distance (t : training) (dist dd : float)
  (Hkind : match t with Swimming _ _ _ _ _ => False | _ => True end)
  (Hdist : get_distance t = Ok (PFloat dist))
  (Hd : as_float (duration t) = Ok dd) (Hd0 : PrimFloat.eqb dd zero = false) :
  get_mean_speed t = Ok (PFloat (dist / dd)%float)
  /\ speed_duration_matches_distance
       (Swimming (PInt 720) (PInt 1) (PInt 80) (PInt 25) (PInt 40)) = false.
Proof.
  split; [|vm_compute; reflexivity].
  assert (Hm : get_mean_speed t = training_get_mean_speed t)
    by (destruct t; [reflexivity | reflexivity | contradiction]).
  rewrite Hm. unfold training_get_mean_speed. rewrite Hdist. cbn [bind].
  rewrite py_div_float_l, Hd. cbn [bind]. rewrite Hd0. reflexivity.
Qed.

Lemma C10_speed_from_same_distance_witness :
  get_mean_speed (Running (PInt 1000) (PFloat 1.1) (PInt 75))
    = Ok (PFloat (0.65 / 1.1)%float)
  /\ speed_duration_matches_distance
       (Swimming (PInt 720) (PInt 1) (PInt 80) (PInt 25) (PInt 40)) = false.
Proof.
  apply (C10_speed_from_same_distance (Running (PInt 1000) (PFloat 1.1) (PInt 75))
           (1000 * 0.65 / 1000)%float 1.1); try exact I; vm_compute; reflexivity.
Defined.

(** * Further properties of [homework.py] *)

(** ** The [__main__] loop *)

Definition prints_all (packages : list (string * list pyval)) (lines : list string)
  : Prop :=
  Forall2 (fun p line => run_package (fst p) (snd p) = Ok line) packages lines.

(** The loop ends without an exception exactly when every package prints
    a line; the lines are then those of the packages, in order. *)
Theorem main_block_no_exception (packages : list (string * list pyval))
  (lines : list string) :
  main_block packages = (lines, None) <-> prints_all packages lines.
Proof.
  unfold prints_all. revert lines.
  induction packages as [|[wt data] rest IH]; intro lines; cbn [main_block].
  - split.
    + intro H. injection H as <-. constructor.
    + intro H. inversion H. reflexivity.
  - destruct (run_package wt data) as [line | e] eqn:Hrun.
    + destruct (main_block rest) as [ls er] eqn:Hrest. split.
      * intro H. injection H as <- ->. constructor; [exact Hrun|].
        apply IH. reflexivity.
      * intro H. inversion H as [|p l rest' ls' Hp Hls]; subst.
        cbn [fst snd] in Hp. rewrite Hrun in Hp. injection Hp as ->.
        apply IH in Hls. injection Hls as H1 H2. subst. reflexivity.
    + split.
      * intro H. discriminate H.
      * intro H. inversion H as [|p l rest' ls' Hp Hls]; subst.
        cbn [fst snd] in Hp. rewrite Hrun in Hp. discriminate Hp.
Qed.

Lemma main_block_stops (packages : list (string * list pyval))
  (lines : list string) (e : exc) :
  main_block packages = (lines, Some e) <->
  exists pre wt data post,
    packages = (pre ++ (wt, data) :: post)%list
    /\ prints_all pre lines /\ run_package wt data = Err e.
Proof.
  unfold prints_all. revert lines.
  induction packages as [|[wt data] rest IH]; intro lines; cbn [main_block].
  - split.
    + intro H. discriminate H.
    + intros [pre [wt [data [post [Hp _]]]]]. destruct pre; discriminate Hp.
  - destruct (run_package wt data) as [line | e'] eqn:Hrun.
    + destruct (main_block rest) as [ls er] eqn:Hrest. split.
      * intro H. injection H as <- ->.
        destruct (proj1 (IH ls) eq_refl) as [pre [wt' [data' [post [Hp [Hpre He]]]]]].
        exists ((wt, data) :: pre), wt', data', post.
        split; [rewrite Hp; reflexivity|]. split; [|exact He].
        constructor; [exact Hrun | exact Hpre].
      * intros [pre [wt' [data' [post [Hp [Hpre He]]]]]].
        destruct pre as [|p pre].
        -- cbn [app] in Hp. injection Hp as -> -> ->. rewrite Hrun in He. discriminate He.
        -- cbn [app] in Hp. injection Hp as <- Hp. inversion Hpre as [|p' l rest' ls' Hl Hls]; subst.
           cbn [fst snd] in Hl. rewrite Hrun in Hl. injection Hl as ->.
           assert (H : (ls, er) = (ls', Some e))
             by (apply IH; exists pre, wt', data', post; auto).
           injection H as H1 H2. subst. reflexivity.
    + split.
      * intro H. injection H as <- ->.
        exists [], wt, data, rest. split; [reflexivity|].
        split; [constructor | exact Hrun].
      * intros [pre [wt' [data' [post [Hp [Hpre He]]]]]].
        destruct pre as [|p pre].
        -- cbn [app] in Hp. injection Hp as -> -> ->. inversion Hpre; subst.
           rewrite Hrun in He. injection He as ->. reflexivity.
        -- cbn [app] in Hp. injection Hp as <- Hp. inversion Hpre as [|p' l rest' ls' Hl Hls]; subst.
           cbn [fst snd] in Hl. rewrite Hrun in Hl. discriminate Hl.
Qed.

(** The loop ends with exception [e] exactly when some package raises
    [e] after all the packages before it printed their lines; those lines
    are what was printed, and the packages after it are not run. *)
Theorem main_block_exception (packages : list (string * list pyval))
  (lines : list string) (e : exc) :
  main_block packages = (lines, Some e) <->
  exists pre wt data post,
    packages = (pre ++ (wt, data) :: post)%list
    /\ prints_all pre lines /\ run_package wt data = Err e.
Proof. apply main_block_stops. Qed.

(** A package with an unknown code stops the loop with [AttributeError]
    (raised by [main] on the [None] of [read_package]), after the lines of
    the packages before it; the packages after it are never read. *)
Theorem main_block_unknown_code (pre post : list (string * list pyval))
  (lines : list string) (wt : string) (data : list pyval)
  (Hpre : prints_all pre lines)
  (Hswm : wt <> "SWM") (Hrun : wt <> "RUN") (Hwlk : wt <> "WLK") :
  main_block (pre ++ (wt, data) :: post)%list = (lines, Some AttributeError).
Proof.
  apply main_block_stops. exists pre, wt, data, post.
  split; [reflexivity|]. split; [exact Hpre|].
  unfold run_package, read_package.
  rewrite (dct_get_training_dct wt Hswm Hrun Hwlk). reflexivity.
Qed.

Lemma main_block_unknown_code_witness :
  main_block [("RUN", pkg_run); ("XYZ", [PInt 1]); ("SWM", pkg_swm)]
  = (["Тип тренировки: Running; Длительность: 1.000 ч.; Дистанция: 9.750 км; Ср. скорость: 9.750 км/ч; Потрачено ккал: 797.805."],
     Some AttributeError).
Proof.
  apply (main_block_unknown_code [("RUN", pkg_run)] [("SWM", pkg_swm)]);
    [ constructor; [vm_compute; reflexivity | constructor]
    | intro H; discriminate H .. ].
Defined.

Lemma main_block_no_exception_witness :
  prints_all [("SWM", pkg_swm); ("RUN", pkg_run)]
    ["Тип тренировки: Swimming; Длительность: 1.000 ч.; Дистанция: 0.994 км; Ср. скорость: 1.000 км/ч; Потрачено ккал: 336.000.";
     "Тип тренировки: Running; Длительность: 1.000 ч.; Дистанция: 9.750 км; Ср. скорость: 9.750 км/ч; Потрачено ккал: 797.805."]
  /\ main_block [("SWM", pkg_swm); ("RUN", pkg_run)]
     = (["Тип тренировки: Swimming; Длительность: 1.000 ч.; Дистанция: 0.994 км; Ср. скорость: 1.000 км/ч; Потрачено ккал: 336.000.";
         "Тип тренировки: Running; Длительность: 1.000 ч.; Дистанция: 9.750 км; Ср. скорость: 9.750 км/ч; Потрачено ккал: 797.805."], None).
Proof.
  assert (H : prints_all [("SWM", pkg_swm); ("RUN", pkg_run)]
    ["Тип тренировки: Swimming; Длительность: 1.000 ч.; Дистанция: 0.994 км; Ср. скорость: 1.000 км/ч; Потрачено ккал: 336.000.";
     "Тип тренировки: Running; Длительность: 1.000 ч.; Дистанция: 9.750 км; Ср. скорость: 9.750 км/ч; Потрачено ккал: 797.805."])
    by (repeat constructor; vm_compute; reflexivity).
  split; [exact H|]. apply main_block_no_exception. exact H.
Defined.

Lemma main_block_exception_witness :
  main_block [("RUN", pkg_run); ("WLK", [PInt 1])] = (
    ["Тип тренировки: Running; Длительность: 1.000 ч.; Дистанция: 9.750 км; Ср. скорость: 9.750 км/ч; Потрачено ккал: 797.805."],
    Some TypeError)
  /\ exists pre wt data post,
       [("RUN", pkg_run); ("WLK", [PInt 1])] = (pre ++ (wt, data) :: post)%list
       /\ prints_all pre
            ["Тип тренировки: Running; Длительность: 1.000 ч.; Дистанция: 9.750 км; Ср. скорость: 9.750 км/ч; Потрачено ккал: 797.805."]
       /\ run_package wt data = Err TypeError.
Proof.
  assert (H : main_block [("RUN", pkg_run); ("WLK", [PInt 1])] = (
    ["Тип тренировки: Running; Длительность: 1.000 ч.; Дистанция: 9.750 км; Ср. скорость: 9.750 км/ч; Потрачено ккал: 797.805."],
    Some TypeError)) by (vm_compute; reflexivity).
  split; [exact H|]. apply main_block_exception. exact H.
Defined.

(** ** Shapes of intermediate values *)

Lemma bind_ok {A B : Type} (m : result A) (k : A -> result B) (v : B) :
  bind m k = Ok v -> exists a, m = Ok a /\ k a = Ok v.
Proof. destruct m as [a | e]; cbn; [eauto | discriminate]. Qed.

Ltac inv_binds H :=
  repeat match type of H with
  | bind ?m _ = Ok _ =>
      let a := fresh "a" in let Hm := fresh "Hm" in
      apply bind_ok in H; destruct H as [a [Hm H]]
  end.

Lemma py_div_is_float (a b v : pyval) : py_div a b = Ok v -> is_float v = true.
Proof.
  intro H. destruct a, b; cbn [py_div] in H; try discriminate H;
    repeat match type of H with
    | (if ?c then _ else _) = _ => destruct c
    | bind ?m _ = _ => destruct m; cbn [bind] in H
    end; try discriminate H; injection H as <-; reflexivity.
Qed.

Lemma py_mul_is_float (a b v : pyval) :
  py_mul a b = Ok v -> is_float a || is_float b = true -> is_float v = true.
Proof.
  intros H Hf. destruct a, b; cbn [is_float orb] in Hf; try discriminate Hf;
    cbn [py_mul] in H; try discriminate H;
    repeat match type of H with
    | bind ?m _ = _ => destruct m; cbn [bind] in H
    end; try discriminate H; injection H as <-; reflexivity.
Qed.

Lemma py_add_is_float (a b v : pyval) :
  py_add a b = Ok v -> is_float a || is_float b = true -> is_float v = true.
Proof.
  intros H Hf. destruct a, b; cbn [is_float orb] in Hf; try discriminate Hf;
    cbn [py_add] in H; try discriminate H;
    repeat match type of H with
    | bind ?m _ = _ => destruct m; cbn [bind] in H
    end; try discriminate H; injection H as <-; reflexivity.
Qed.

Lemma py_div_float_l_ok (x : float) (b v : pyval) :
  py_div (PFloat x) b = Ok v -> exists f, as_float b = Ok f.
Proof.
  rewrite py_div_float_l. destruct (as_float b) as [f | e]; cbn [bind]; [eauto|].
  discriminate.
Qed.

Lemma get_distance_is_float (t : training) (v : pyval) :
  get_distance t = Ok v -> is_float v = true.
Proof.
  unfold get_distance. intro H. inv_binds H. exact (py_div_is_float _ _ _ H).
Qed.

Lemma get_mean_speed_is_float (t : training) (v : pyval) :
  get_mean_speed t = Ok v -> is_float v = true.
Proof.
  destruct t; cbn [get_mean_speed]; unfold training_get_mean_speed; intro H;
    inv_binds H; exact (py_div_is_float _ _ _ H).
Qed.

Lemma float_of_is_float (v : pyval) : is_float v = true -> exists f, v = PFloat f.
Proof. destruct v; cbn; try discriminate; eauto. Qed.

(** The duration of a record whose mean speed is computed is a number
    usable as a float: it is the divisor of the last division. *)
Lemma get_mean_speed_duration (t : training) (v : pyval) :
  get_mean_speed t = Ok v -> exists f, as_float (duration t) = Ok f.
Proof.
  destruct t; cbn [get_mean_speed duration]; unfold training_get_mean_speed;
    intro H; inv_binds H.
  - destruct (float_of_is_float _ (get_distance_is_float _ _ Hm)) as [x ->].
    exact (py_div_float_l_ok _ _ _ H).
  - destruct (float_of_is_float _ (get_distance_is_float _ _ Hm)) as [x ->].
    exact (py_div_float_l_ok _ _ _ H).
  - destruct (float_of_is_float _ (py_div_is_float _ _ _ Hm0)) as [x ->].
    exact (py_div_float_l_ok _ _ _ H).
Qed.

Lemma get_spent_calories_is_float (t : training) (v : pyval) :
  get_spent_calories t = Ok v -> is_float v = true.
Proof.
  destruct t; cbn [get_spent_calories]; intro H; inv_binds H.
  - apply (py_mul_is_float _ _ _ H). rewrite (py_div_is_float _ _ _ Hm3). reflexivity.
  - apply (py_mul_is_float _ _ _ H). rewrite (py_add_is_float _ _ _ Hm7); [reflexivity|].
    rewrite (py_mul_is_float _ _ _ Hm); reflexivity.
  - apply (py_mul_is_float _ _ _ H). rewrite (py_mul_is_float _ _ _ Hm2); [reflexivity|].
    rewrite (py_mul_is_float _ _ _ Hm1); [reflexivity|].
    rewrite (py_add_is_float _ _ _ Hm0); [reflexivity|]. apply orb_true_r.
Qed.

Lemma format_3f_of_as_float (v : pyval) (f : float) :
  as_float v = Ok f -> format_3f v = Ok (format_float_3f f).
Proof.
  intro H. destruct v; cbn [as_float] in H; try discriminate H; cbn [format_3f].
  - rewrite H. reflexivity.
  - injection H as ->. reflexivity.
Qed.

(** ** Printing a report *)

(** Printing never raises: [main] on a record fails exactly when
    [show_training_info] does, never in [get_message]'s formatting. *)
Theorem main_fails_only_in_metrics (t : training) :
  is_ok (main (Some t)) = is_ok (show_training_info t).
Proof.
  unfold main. destruct (show_training_info t) as [i | e] eqn:Hi; cbn [bind]; [|reflexivity].
  unfold show_training_info in Hi. inv_binds Hi. injection Hi as <-.
  destruct (get_mean_speed_duration _ _ Hm0) as [df Hdf].
  destruct (float_of_is_float _ (get_distance_is_float _ _ Hm)) as [x ->].
  destruct (float_of_is_float _ (get_mean_speed_is_float _ _ Hm0)) as [y ->].
  destruct (float_of_is_float _ (get_spent_calories_is_float _ _ Hm1)) as [z ->].
  unfold get_message. cbn [info_duration info_distance info_speed info_calories].
  rewrite (format_3f_of_as_float _ _ Hdf). reflexivity.
Qed.

Lemma show_training_info_ok (t : training) :
  is_ok (show_training_info t)
  = is_ok (get_distance t) && is_ok (get_mean_speed t) && is_ok (get_spent_calories t).
Proof.
  unfold show_training_info.
  destruct (get_distance t); cbn [bind is_ok andb]; [|reflexivity].
  destruct (get_mean_speed t); cbn [bind is_ok andb]; [|reflexivity].
  destruct (get_spent_calories t); reflexivity.
Qed.

Lemma training_get_mean_speed_ok_distance (t : training) :
  is_ok (training_get_mean_speed t) = true -> is_ok (get_distance t) = true.
Proof.
  unfold training_get_mean_speed. destruct (get_distance t); [reflexivity|].
  cbn. discriminate.
Qed.

(** For [Running] and [SportsWalking], [show_training_info] succeeds
    exactly when [get_spent_calories] does (the calories need the mean
    speed, which needs the distance); for [Swimming] it needs the distance
    besides the calories, since the swimming calories never use it. *)
Theorem show_training_info_iff_calories :
  (forall a d w,
     is_ok (show_training_info (Running a d w))
     = is_ok (get_spent_calories (Running a d w)))
  /\ (forall a d w h,
     is_ok (show_training_info (SportsWalking a d w h))
     = is_ok (get_spent_calories (SportsWalking a d w h)))
  /\ (forall a d w lp cp,
     is_ok (show_training_info (Swimming a d w lp cp))
     = is_ok (get_distance (Swimming a d w lp cp))
       && is_ok (get_spent_calories (Swimming a d w lp cp))).
Proof.
  split; [|split].
  - intros a d w. rewrite show_training_info_ok.
    destruct (get_spent_calories (Running a d w)) as [c | e] eqn:Hc;
      [|rewrite !andb_false_r; reflexivity].
    cbn [get_spent_calories] in Hc. inv_binds Hc.
    cbn [get_mean_speed]. rewrite Hm.
    rewrite (training_get_mean_speed_ok_distance _ (f_equal is_ok Hm)). reflexivity.
  - intros a d w h. rewrite show_training_info_ok.
    destruct (get_spent_calories (SportsWalking a d w h)) as [c | e] eqn:Hc;
      [|rewrite !andb_false_r; reflexivity].
    cbn [get_spent_calories] in Hc. inv_binds Hc.
    cbn [get_mean_speed]. rewrite Hm0.
    rewrite (training_get_mean_speed_ok_distance _ (f_equal is_ok Hm0)). reflexivity.
  - intros a d w lp cp. rewrite show_training_info_ok.
    destruct (get_spent_calories (Swimming a d w lp cp)) as [c | e] eqn:Hc;
      [|rewrite !andb_false_r; reflexivity].
    cbn [get_spent_calories] in Hc. inv_binds Hc. rewrite Hm.
    destruct (is_ok (get_distance _)); reflexivity.
Qed.

(** ** Dispatch *)

(** A record returned by [read_package] holds the package's values in
    order, and its class is the one of the code: [Running] for RUN,
    [SportsWalking] for WLK, [Swimming] for SWM. *)
Theorem read_package_class (wt : string) (data : list pyval) (t : training)
  (H : read_package wt data = Ok (Some t)) :
  init_args t = data
  /\ ((wt = "RUN" /\ class_name t = "Running")
      \/ (wt = "WLK" /\ class_name t = "SportsWalking")
      \/ (wt = "SWM" /\ class_name t = "Swimming")).
Proof.
  unfold read_package, training_dct in H. cbn [dct_get] in H.
  destruct (String.eqb_spec wt "SWM") as [->|];
    [| destruct (String.eqb_spec wt "RUN") as [->|];
       [| destruct (String.eqb_spec wt "WLK") as [->|]; [|discriminate H]]];
    inv_binds H; injection H as <-;
    destruct data as [|x0 [|x1 [|x2 [|x3 [|x4 [|x5 data]]]]]];
    cbn in Hm; try discriminate Hm; injection Hm as <-; cbn; auto 6.
Qed.

Lemma read_package_class_witness :
  read_package "WLK" pkg_wlk
    = Ok (Some (SportsWalking (PInt 9000) (PInt 1) (PInt 75) (PInt 180)))
  /\ init_args (SportsWalking (PInt 9000) (PInt 1) (PInt 75) (PInt 180)) = pkg_wlk
  /\ (("WLK" = "RUN" /\ class_name (SportsWalking (PInt 9000) (PInt 1) (PInt 75) (PInt 180)) = "Running")
      \/ ("WLK" = "WLK" /\ class_name (SportsWalking (PInt 9000) (PInt 1) (PInt 75) (PInt 180)) = "SportsWalking")
      \/ ("WLK" = "SWM" /\ class_name (SportsWalking (PInt 9000) (PInt 1) (PInt 75) (PInt 180)) = "Swimming")).
Proof.
  assert (H : read_package "WLK" pkg_wlk
    = Ok (Some (SportsWalking (PInt 9000) (PInt 1) (PInt 75) (PInt 180))))
    by reflexivity.
  split; [exact H|]. exact (read_package_class _ _ _ H).
Defined.

(** ** What the swimming calories use *)

(** The swimming calories never read [action]; [action] only enters the
    distance, so a [str] action makes [show_training_info] raise
    [TypeError] even though the calories can be computed. *)
Theorem swimming_action_only_in_distance (a a' d w lp cp : pyval) (s : string) :
  get_spent_calories (Swimming a d w lp cp) = get_spent_calories (Swimming a' d w lp cp)
  /\ show_training_info (Swimming (PStr s) d w lp cp) = Err TypeError.
Proof. split; reflexivity. Qed.

(** ** Edge inputs *)

(** A [SportsWalking] record whose height in metres ([height / 100] as
    [height_in_m] computes it) is zero, e.g. height [0] or [0.0], still has
    a mean speed, but its calories raise [ZeroDivisionError] (when the
    square before the division does not overflow). *)
Theorem walking_zero_height_raises (a h : pyval) (af d w hm : float)
  (Ha : as_float a = Ok af) (Hd : PrimFloat.eqb d zero = false)
  (Hh : height_in_m h = Ok (PFloat hm)) (Hh0 : PrimFloat.eqb hm zero = true) :
  let s := (af * 0.65 / 1000 / d)%float in
  let b := (s * 0.278)%float in
  is_infinity (b * b) = false ->
  get_mean_speed (SportsWalking a (PFloat d) (PFloat w) h) = Ok (PFloat s)
  /\ get_spent_calories (SportsWalking a (PFloat d) (PFloat w) h) = Err ZeroDivisionError.
Proof.
  intros s b Hb.
  assert (Hs : training_get_mean_speed (SportsWalking a (PFloat d) (PFloat w) h)
               = Ok (PFloat s))
    by exact (training_get_mean_speed_ok
                (SportsWalking a (PFloat d) (PFloat w) h) af d Ha eq_refl Hd).
  split; [exact Hs|].
  unfold get_spent_calories, WLK_MULTIPLIER, KMH_TO_MPS.
  rewrite (py_mul_float_l 0.035 (PFloat w) w eq_refl). cbn [bind].
  rewrite Hs. cbn [bind].
  rewrite (py_mul_float_l s (PFloat 0.278) 0.278 eq_refl). cbn [bind].
  unfold py_pow2. fold b. rewrite Hb. cbn [andb bind].
  rewrite Hh. cbn [bind].
  rewrite py_div_float_l. cbn [as_float bind]. rewrite Hh0. reflexivity.
Qed.

Lemma walking_zero_height_raises_witness :
  get_mean_speed (SportsWalking (PInt 9000) (PFloat 1) (PFloat 75) (PInt 0))
    = Ok (PFloat (9000 * 0.65 / 1000 / 1)%float)
  /\ get_spent_calories (SportsWalking (PInt 9000) (PFloat 1) (PFloat 75) (PInt 0))
     = Err ZeroDivisionError.
Proof.
  apply (walking_zero_height_raises (PInt 9000) (PInt 0) 9000 1 75 0);
    vm_compute; reflexivity.
Defined.

Lemma get_mean_speed_zero_duration (t : training)
  (Hnum : numeric_record t = true) (Hzero : is_py_zero (duration t) = true) :
  get_mean_speed t = Err ZeroDivisionError.
Proof.
  assert (Hd : forall dist, py_div (PFloat dist) (duration t) = Err ZeroDivisionError)
    by (intro; apply py_div_float_by_zero; exact Hzero).
  destruct t as [a d w | a d w h | a d w lp cp]; cbn [numeric_record] in Hnum;
    numeric_fields.
  - cbn [get_mean_speed]. unfold training_get_mean_speed.
    rewrite (get_distance_ok (Running a d w) _ H). cbn [bind]. apply Hd.
  - cbn [get_mean_speed]. unfold training_get_mean_speed.
    rewrite (get_distance_ok (SportsWalking a d w h) _ H). cbn [bind]. apply Hd.
  - match goal with Hprod : is_ok (bind (py_mul lp cp) _) = true |- _ =>
      destruct (py_mul lp cp) as [p | e] eqn:Hp; cbn [bind] in Hprod;
      [apply is_ok_as_float in Hprod; destruct Hprod as [pf Hpf] | discriminate Hprod]
    end.
    unfold get_mean_speed. rewrite Hp. cbn [bind].
    destruct (py_div_by_1000_ok p pf Hpf) as [q ->]. cbn [bind]. apply Hd.
Qed.

Lemma numeric_record_action (t : training) :
  numeric_record t = true -> exists af, as_float (action t) = Ok af.
Proof.
  intro Hnum. destruct t; cbn [numeric_record action] in *; numeric_fields; eauto.
Qed.

(** A package of a known code whose values are numbers and whose duration
    is zero makes the [__main__] loop body raise [ZeroDivisionError]: the
    distance is printed nowhere, the mean speed divides by zero first. *)
Theorem run_package_zero_duration (wt : string) (data : list pyval) (t : training)
  (Hread : read_package wt data = Ok (Some t))
  (Hnum : numeric_record t = true) (Hzero : is_py_zero (duration t) = true) :
  run_package wt data = Err ZeroDivisionError.
Proof.
  unfold run_package. rewrite Hread. cbn [bind main].
  destruct (numeric_record_action t Hnum) as [af Ha].
  unfold show_training_info. rewrite (get_distance_ok t af Ha). cbn [bind].
  rewrite (get_mean_speed_zero_duration t Hnum Hzero). reflexivity.
Qed.

Lemma run_package_zero_duration_witness :
  run_package "RUN" [PInt 15000; PFloat 0; PInt 75] = Err ZeroDivisionError.
Proof.
  apply (run_package_zero_duration "RUN" [PInt 15000; PFloat 0; PInt 75]
           (Running (PInt 15000) (PFloat 0) (PInt 75))); vm_compute; reflexivity.
Defined.

(** ** A [str] value is never reported *)

Lemma is_float_not_str (v : pyval) : is_float v = true -> is_str v = false.
Proof. destruct v; cbn; congruence. Qed.

Lemma py_div_no_str (a b v : pyval) :
  py_div a b = Ok v -> is_str a = false /\ is_str b = false.
Proof. destruct a, b; cbn [py_div is_str]; try discriminate; auto. Qed.

Lemma py_pow2_no_str (a v : pyval) :
  py_pow2 a = Ok v -> is_str a = false /\ is_str v = false.
Proof.
  destruct a; cbn [py_pow2]; [intro H; injection H as <-; auto| |discriminate].
  destruct (_ && _); [discriminate|]. intro H; injection H as <-; auto.
Qed.

Lemma py_mul_no_str (a b v : pyval) :
  py_mul a b = Ok v -> is_str v = false -> is_str a = false /\ is_str b = false.
Proof.
  destruct a, b; cbn [py_mul is_str]; try discriminate; auto;
    intro H; injection H as <-; cbn; discriminate.
Qed.

Lemma py_add_no_str (a b v : pyval) :
  py_add a b = Ok v -> is_str v = false -> is_str a = false /\ is_str b = false.
Proof.
  destruct a, b; cbn [py_add is_str]; try discriminate; auto;
    intro H; injection H as <-; cbn; discriminate.
Qed.

(** Propagates "is not a [str]" from results back to operands. *)
Ltac str_free :=
  repeat match goal with
  | H : is_float ?v = true |- _ => apply is_float_not_str in H
  | H : py_div ?a ?b = Ok ?v |- _ => apply py_div_no_str in H; destruct H
  | H : py_pow2 ?a = Ok ?v |- _ => apply py_pow2_no_str in H; destruct H
  | H : py_mul ?a ?b = Ok ?v, Hv : is_str ?v = false |- _ =>
      destruct (py_mul_no_str _ _ _ H Hv); clear H
  | H : py_add ?a ?b = Ok ?v, Hv : is_str ?v = false |- _ =>
      destruct (py_add_no_str _ _ _ H Hv); clear H
  end.

Lemma show_training_info_no_str (t : training) (i : info_message) :
  show_training_info t = Ok i -> has_str t = false.
Proof.
  unfold show_training_info. intro H. inv_binds H.
  pose proof (get_spent_calories_is_float _ _ Hm1) as Hc.
  destruct t;
    unfold get_distance, training_get_mean_speed, height_in_m,
      training_time_in_minutes in *;
    cbn [get_mean_speed get_spent_calories] in *;
    repeat match goal with Hb : bind _ _ = Ok _ |- _ => inv_binds Hb end;
    unfold training_time_in_minutes, height_in_m in *; cbn [action duration] in *;
    str_free; unfold has_str; cbn [init_args existsb];
    repeat match goal with Hs : is_str ?x = false |- context [is_str ?x] => rewrite Hs end;
    reflexivity.
Qed.

(** A record holding a [str] anywhere (action, duration, weight, height,
    pool length or pool count) never gets a report line: [main] raises on
    it, whatever the other values are. *)
Theorem str_value_never_printed (t : training) (H : has_str t = true) :
  exists e, main (Some t) = Err e.
Proof.
  unfold main. destruct (show_training_info t) as [i | e] eqn:Hi; cbn [bind]; [|eauto].
  rewrite (show_training_info_no_str t i Hi) in H. discriminate H.
Qed.

Lemma str_value_never_printed_witness :
  exists e, main (Some (Swimming (PInt 720) (PInt 1) (PInt 80) (PInt 25) (PStr "40")))
            = Err e.
Proof.
  apply (str_value_never_printed (Swimming (PInt 720) (PInt 1) (PInt 80) (PInt 25) (PStr "40"))).
  reflexivity.
Defined.

(** ** Construction of records: what [read_package] checks *)

(** Claim C8 (amended): for a known code, a package whose length differs
    from the constructor's arity (3 for RUN, 4 for WLK, 5 for SWM) makes
    [read_package] raise [TypeError] and construct nothing; a package of
    the right length is stored as is, without any check of the values, and
    a non-numeric ([str]) value, in any position, only fails later: the
    record is constructed and [main] raises when it computes the metrics. *)
Theorem C8_arity_checked_values_unchecked
  (wt : string) (data : list pyval) (n : nat)
  (Hn : expected_arity wt = Some n) :
  (length data <> n -> read_package wt data = Err TypeError)
  /\ (length data = n ->
      exists t, read_package wt data = Ok (Some t) /\ init_args t = data)
  /\ (length data = n -> existsb is_str data = true ->
      exists t e, read_package wt data = Ok (Some t)
                  /\ main (Some t) = Err e /\ run_package wt data = Err e).
Proof.
  assert (Hbuild : length data = n ->
            exists t, read_package wt data = Ok (Some t) /\ init_args t = data).
  { intro Hlen.
    destruct (read_package_known wt data n Hn) as [[_ [-> ->]]|[[_ [-> ->]]|[_ [-> ->]]]];
      (destruct data as [|x0 [|x1 [|x2 [|x3 [|x4 [|x5 data]]]]]];
       cbn [length] in Hlen; try discriminate Hlen; eexists; split; reflexivity). }
  split; [|split; [exact Hbuild|]].
  - intro Hlen.
    destruct (read_package_known wt data n Hn) as [[_ [-> ->]]|[[_ [-> ->]]|[_ [-> ->]]]];
      (destruct data as [|x0 [|x1 [|x2 [|x3 [|x4 [|x5 data]]]]]];
       cbn [length] in Hlen; try reflexivity; exfalso; apply Hlen; reflexivity).
  - intros Hlen Hstr. destruct (Hbuild Hlen) as [t [Hread Hargs]].
    assert (Hmain : exists e, main (Some t) = Err e).
    { unfold main. destruct (show_training_info t) as [i | e] eqn:Hi; cbn [bind]; [|eauto].
      pose proof (show_training_info_no_str t i Hi) as Hno.
      unfold has_str in Hno. rewrite Hargs, Hstr in Hno. discriminate Hno. }
    destruct Hmain as [e He]. exists t, e. split; [exact Hread|]. split; [exact He|].
    unfold run_package. rewrite Hread. exact He.
Qed.

Lemma C8_arity_checked_values_unchecked_witness :
  expected_arity "WLK" = Some 4%nat
  /\ read_package "WLK" [PInt 9000; PInt 1; PInt 75] = Err TypeError
  /\ exists t e, read_package "SWM" [PInt 720; PInt 1; PInt 80; PInt 25; PStr "40"]
                 = Ok (Some t)
                /\ main (Some t) = Err e
                /\ run_package "SWM" [PInt 720; PInt 1; PInt 80; PInt 25; PStr "40"] = Err e.
Proof.
  split; [reflexivity|]. split.
  - apply (proj1 (C8_arity_checked_values_unchecked "WLK" [PInt 9000; PInt 1; PInt 75] 4%nat
                    eq_refl)).
    cbn. intro H. discriminate H.
  - apply (proj2 (proj2 (C8_arity_checked_values_unchecked "SWM"
                          [PInt 720; PInt 1; PInt 80; PInt 25; PStr "40"] 5%nat eq_refl)));
      reflexivity.
Defined.
